(** * cdk-ecs-blue-green: the [IacStack] construct tree and its load balancer

    The program is one CDK stack, [packages/iac/lib/iac-stack.ts].  Its
    constructor declares a VPC, an ECS cluster, a Fargate service deployed
    with the blue/green strategy, an application load balancer with a
    production listener (port 80) and a test listener (port 8080), a blue
    and a green target group, and one forwarding rule per listener.

    The embedding follows the constructor statement by statement.  Every
    [new X(scope, id, props)] adds a construct to the tree under the path
    [scope/id]; the tree is threaded through the constructor by a small
    state-and-error monad.  The library calls of the source are modelled
    with the effects they have on the constructs the source declares: a
    duplicate or empty construct id, a port mapping without a port and a
    load balancer target without its container or port are errors; a
    listener opens its port on the load balancer's security group; and
    attaching the service to a target group admits the load balancer to
    the service's security group.  The modules [cdk], [ec2], [iam], [ecs]
    and [elbv2] hold the props records of the library namespaces the
    source imports, with the fields the source sets and the optional
    fields it leaves unset. *)

From Stdlib Require Import String Ascii List ZArith Bool Lia DecimalString.
Import ListNotations.
Local Open Scope string_scope.
Local Open Scope Z_scope.

(** A construct is referred to by its path in the tree. *)
Definition ConstructPath := string.

(** ** [aws-cdk-lib] core *)
Module cdk.

Inductive TimeUnit := Milliseconds | Seconds | Minutes | Hours | Days.

Definition inMillis (u : TimeUnit) : Z :=
  match u with
  | Milliseconds => 1
  | Seconds => 1000
  | Minutes => 60000
  | Hours => 3600000
  | Days => 86400000
  end.

Record Duration := { amount : Z; unit : TimeUnit }.

(** [Duration.minutes(n)] and [Duration.seconds(n)], for the whole,
    non-negative amounts a program writes down; the source writes 2. *)
Definition minutes (n : Z) : Duration := {| amount := n; unit := Minutes |}.
Definition seconds (n : Z) : Duration := {| amount := n; unit := Seconds |}.

(** [Duration.toX()]: the amount when the units agree, otherwise the
    amount rescaled, refused when the result is not a whole number. *)
Definition convert (d : Duration) (to : TimeUnit) : option Z :=
  if inMillis (unit d) =? inMillis to then Some (amount d)
  else
    let scaled := amount d * inMillis (unit d) in
    if scaled mod inMillis to =? 0 then Some (scaled / inMillis to) else None.

Definition toMinutes (d : Duration) : option Z := convert d Minutes.
Definition toSeconds (d : Duration) : option Z := convert d Seconds.
Definition toMilliseconds (d : Duration) : option Z := convert d Milliseconds.

Record StackProps := {
  stackName : option string;
  description : option string;
  terminationProtection : option bool
}.

End cdk.

(** ** [aws-cdk-lib/aws-ec2] *)
Module ec2.

Inductive SubnetType := PUBLIC | PRIVATE_WITH_EGRESS | PRIVATE_ISOLATED.

Record SubnetConfiguration := {
  cidrMask : Z;
  name : string;
  subnetType : SubnetType
}.

Record VpcProps := {
  maxAzs : Z;
  natGateways : Z;
  subnetConfiguration : list SubnetConfiguration
}.

Record SubnetSelection := { subnetGroupName : string }.

(** Who an ingress rule admits: any IPv4 address ([Peer.anyIpv4()]), or
    the members of another security group of the tree. *)
Inductive Peer := anyIpv4 | fromSecurityGroup (sg : ConstructPath).
Inductive Port := tcp (p : Z).

Definition peer_eqb (a b : Peer) : bool :=
  match a, b with
  | anyIpv4, anyIpv4 => true
  | fromSecurityGroup x, fromSecurityGroup y => String.eqb x y
  | _, _ => false
  end.

Definition port_eqb (a b : Port) : bool :=
  match a, b with
  | tcp x, tcp y => x =? y
  end.

(** A security group with the ingress rules it has been given, by the
    source's own [addIngressRule] and by the constructs that open a port
    on it. *)
Record SecurityGroup := {
  vpc : ConstructPath;
  allowAllOutbound : bool;
  ingressRules : list (Peer * Port)
}.

End ec2.

(** ** [aws-cdk-lib/aws-iam] *)
Module iam.

Inductive Principal := ServicePrincipal (service : string).
Inductive ManagedPolicy := fromAwsManagedPolicyName (policy : string).

Record RoleProps := {
  assumedBy : Principal;
  managedPolicies : list ManagedPolicy
}.

End iam.

(** ** [aws-cdk-lib/aws-elasticloadbalancingv2] *)
Module elbv2.

Inductive ApplicationProtocol := HTTP | HTTPS.
Inductive Protocol := pHTTP | pHTTPS | pTCP | pTLS | pUDP | pTCP_UDP.
Inductive TargetType := INSTANCE | IP | LAMBDA | ALB.

(** The health check of a target group.  The source sets [path], [port]
    and [protocol]; the other fields of the interface stay unset. *)
Record HealthCheck := {
  enabled : option bool;
  healthyHttpCodes : option string;
  healthyThresholdCount : option Z;
  unhealthyThresholdCount : option Z;
  interval : option cdk.Duration;
  timeout : option cdk.Duration;
  path : option string;
  port : option string;
  protocol : option Protocol
}.

Record ApplicationTargetGroupProps := {
  targetGroupName : string;
  tgVpc : ConstructPath;
  tgProtocol : ApplicationProtocol;
  targetType : TargetType;
  healthCheck : HealthCheck
}.

Record FixedResponseOptions := {
  contentType : option string;
  messageBody : option string
}.

Inductive ListenerAction :=
| fixedResponse (statusCode : Z) (options : FixedResponseOptions)
| forward (targetGroups : list ConstructPath).

Inductive ListenerCondition :=
| pathPatterns (values : list string).

Record ApplicationListenerProps := {
  loadBalancer : ConstructPath;
  listenerPort : Z;
  listenerProtocol : ApplicationProtocol;
  defaultAction : ListenerAction
}.

Record ApplicationListenerRuleProps := {
  listener : ConstructPath;
  priority : Z;
  conditions : list ListenerCondition;
  action : ListenerAction
}.

Record ApplicationLoadBalancerProps := {
  albVpc : ConstructPath;
  internetFacing : bool;
  securityGroup : ConstructPath;
  albVpcSubnets : ec2.SubnetSelection
}.

End elbv2.

(** ** [aws-cdk-lib/aws-ecs] and [aws-cdk-lib/aws-ecr-assets] *)
Module ecs.

Inductive Platform := LINUX_AMD64 | LINUX_ARM64.

(** [ContainerImage.fromAsset(path.join(__dirname, dir), {platform})]:
    the directory is kept relative to the source file's directory. *)
Record ContainerImage := {
  assetDirectory : string;
  platform : Platform
}.

Inductive LogDriver := awsLogs (streamPrefix : string).

Record PortMapping := { containerPort : Z }.

Record ContainerDefinition := {
  containerName : string;
  image : ContainerImage;
  essential : bool;
  logging : LogDriver;
  portMappings : list PortMapping
}.

Record FargateTaskDefinition := {
  cpu : Z;
  memoryLimitMiB : Z;
  executionRole : ConstructPath
}.

Record ClusterProps := { clusterVpc : ConstructPath }.

Inductive FargatePlatformVersion := LATEST | VERSION1_4 | VERSION1_3.
Inductive DeploymentStrategy := ROLLING | BLUE_GREEN.
Inductive Protocol := TCP | UDP.

Inductive ListenerRuleConfiguration :=
| applicationListenerRule (rule : ConstructPath).

(** [new ecs.AlternateTarget(id, props)]. *)
Record AlternateTarget := {
  alternateTargetId : string;
  alternateTargetGroup : ConstructPath;
  productionListener : option ListenerRuleConfiguration;
  testListener : option ListenerRuleConfiguration;
  role : option ConstructPath
}.

Record LoadBalancerTargetOptions := {
  lbContainerName : string;
  lbContainerPort : Z;
  lbProtocol : Protocol;
  alternateTarget : option AlternateTarget
}.

(** What [attachToApplicationTargetGroup] records on the service: the
    target group that receives the service's tasks, and the options of
    the load balancer target. *)
Record LoadBalancerAttachment := {
  targetGroup : ConstructPath;
  target : LoadBalancerTargetOptions
}.

Record FargateService := {
  cluster : ConstructPath;
  taskDefinition : ConstructPath;
  platformVersion : FargatePlatformVersion;
  desiredCount : Z;
  assignPublicIp : bool;
  securityGroups : list ConstructPath;
  vpcSubnets : ec2.SubnetSelection;
  deploymentStrategy : DeploymentStrategy;
  bakeTime : option cdk.Duration;
  loadBalancers : list LoadBalancerAttachment
}.

End ecs.

(** ** The construct tree *)

Inductive Construct :=
| Vpc (p : ec2.VpcProps)
| Cluster (p : ecs.ClusterProps)
| Role (p : iam.RoleProps)
| TaskDefinition (p : ecs.FargateTaskDefinition)
| Container (p : ecs.ContainerDefinition)
| SecurityGroup (p : ec2.SecurityGroup)
| Service (p : ecs.FargateService)
| LoadBalancer (p : elbv2.ApplicationLoadBalancerProps)
| TargetGroup (p : elbv2.ApplicationTargetGroupProps)
| Listener (p : elbv2.ApplicationListenerProps)
| ListenerRule (p : elbv2.ApplicationListenerRuleProps).

(** Constructs in creation order, each under its path. *)
Definition Tree := list (ConstructPath * Construct).

Record Stack := {
  stackId : string;
  stackProps : option cdk.StackProps;
  tree : Tree
}.

Inductive BuildError :=
| DuplicateId (p : ConstructPath)
| EmptyId (scope : ConstructPath)
| NoSuchConstruct (p : ConstructPath)
| InvalidPortMapping (container : ConstructPath)
| NoSuchContainer (containerName : string)
| NoPortMapping (containerName : string) (port : Z).

(** The constructor's effects: the tree under construction, and failure. *)
Definition Build (A : Type) : Type := Stack -> BuildError + (A * Stack).

Definition ret {A} (a : A) : Build A := fun s => inr (a, s).

Definition bind {A B} (m : Build A) (k : A -> Build B) : Build B :=
  fun s => match m s with
           | inl e => inl e
           | inr (a, s') => k a s'
           end.

Definition raise {A} (e : BuildError) : Build A := fun _ => inl e.

Declare Scope build_scope.
Delimit Scope build_scope with build.
Notation "x <- m ;; k" := (bind m (fun x => k))
  (at level 61, m at next level, right associativity) : build_scope.
Notation "m ;;; k" := (bind m (fun _ => k))
  (at level 61, right associativity) : build_scope.

Fixpoint lookup (p : ConstructPath) (t : Tree) : option Construct :=
  match t with
  | [] => None
  | (q, c) :: t' => if String.eqb p q then Some c else lookup p t'
  end.

Fixpoint replace (p : ConstructPath) (c : Construct) (t : Tree) : Tree :=
  match t with
  | [] => []
  | (q, d) :: t' =>
      if String.eqb p q then (q, c) :: t' else (q, d) :: replace p c t'
  end.

(** The scope of a construct: the stack itself ([this]) or a construct of
    the tree ([alb.addListener], [taskDefinition.addContainer]). *)
Inductive Scope := this | inside (parent : ConstructPath).

(** An id with its path separators replaced, as a construct keeps it. *)
Fixpoint sanitizeId (id : string) : string :=
  match id with
  | EmptyString => EmptyString
  | String c id' =>
      if Ascii.eqb c "/" then String "-" (String "-" (sanitizeId id'))
      else String c (sanitizeId id')
  end.

Definition childPath (scope : Scope) (id : string) : ConstructPath :=
  match scope with
  | this => sanitizeId id
  | inside parent => parent ++ "/" ++ sanitizeId id
  end.

Definition scopePath (scope : Scope) : ConstructPath :=
  match scope with
  | this => ""
  | inside parent => parent
  end.

(** [new X(scope, id, props)]: the construct joins the tree, unless its id
    is empty or its scope already holds a construct of that id.  The tree
    holds the constructs that the source declares; the children that a
    library construct creates for itself are not part of it. *)
Definition construct (scope : Scope) (id : string) (c : Construct)
  : Build ConstructPath :=
  fun s =>
    let p := childPath scope id in
    match id with
    | EmptyString => inl (EmptyId (scopePath scope))
    | String _ _ =>
        match lookup p (tree s) with
        | Some _ => inl (DuplicateId p)
        | None =>
            inr (p, {| stackId := stackId s;
                       stackProps := stackProps s;
                       tree := (tree s ++ [(p, c)])%list |})
        end
    end.

(** A method that mutates a construct in place. *)
Definition mutate (p : ConstructPath) (f : Construct -> Construct)
  : Build unit :=
  fun s =>
    match lookup p (tree s) with
    | None => inl (NoSuchConstruct p)
    | Some c =>
        inr (tt, {| stackId := stackId s;
                    stackProps := stackProps s;
                    tree := replace p (f c) (tree s) |})
    end.

(** [vpc.selectSubnets(selection)]. *)
Definition selectSubnets (vpc : ConstructPath) (sel : ec2.SubnetSelection)
  : ec2.SubnetSelection := sel.

(** [taskDefinition.addContainer(id, props)]: a construct in the scope of
    the task definition, with no port mapping yet. *)
Definition addContainer (taskDefinition : ConstructPath) (id : string)
    (containerName : string) (image : ecs.ContainerImage)
    (essential : bool) (logging : ecs.LogDriver) : Build ConstructPath :=
  construct (inside taskDefinition) id
    (Container {| ecs.containerName := containerName;
                  ecs.image := image;
                  ecs.essential := essential;
                  ecs.logging := logging;
                  ecs.portMappings := [] |}).

(** [container.addPortMappings(mapping)]: container port 0 stands for a
    port range, which the mapping of the source does not give, and is
    refused. *)
Definition addPortMappings (container : ConstructPath)
    (m : ecs.PortMapping) : Build unit :=
  if ecs.containerPort m =? 0 then raise (InvalidPortMapping container) else
  mutate container (fun c =>
    match c with
    | Container d =>
        Container {| ecs.containerName := ecs.containerName d;
                     ecs.image := ecs.image d;
                     ecs.essential := ecs.essential d;
                     ecs.logging := ecs.logging d;
                     ecs.portMappings := (ecs.portMappings d ++ [m])%list |}
    | _ => c
    end).

Definition hasIngressRule (g : ec2.SecurityGroup) (peer : ec2.Peer)
    (port : ec2.Port) : bool :=
  existsb (fun r => ec2.peer_eqb (fst r) peer && ec2.port_eqb (snd r) port)
          (ec2.ingressRules g).

(** [securityGroup.addIngressRule(peer, port)]: the rule joins the group's
    ingress rules, unless the group already has it. *)
Definition addIngressRule (sg : ConstructPath) (peer : ec2.Peer)
    (port : ec2.Port) : Build unit :=
  mutate sg (fun c =>
    match c with
    | SecurityGroup g =>
        if hasIngressRule g peer port then c
        else
          SecurityGroup
            {| ec2.vpc := ec2.vpc g;
               ec2.allowAllOutbound := ec2.allowAllOutbound g;
               ec2.ingressRules :=
                 (ec2.ingressRules g ++ [(peer, port)])%list |}
    | _ => c
    end).

Fixpoint forEach {A} (l : list A) (f : A -> Build unit) : Build unit :=
  match l with
  | [] => ret tt
  | a :: l' => bind (f a) (fun _ => forEach l' f)
  end.

(** The security group of a load balancer. *)
Definition loadBalancerSecurityGroup (alb : ConstructPath)
  : Build ConstructPath :=
  fun s =>
    match lookup alb (tree s) with
    | Some (LoadBalancer a) => inr (elbv2.securityGroup a, s)
    | _ => inl (NoSuchConstruct alb)
    end.

(** [alb.addListener(id, props)]: a listener in the scope of the load
    balancer.  The source leaves [open] at its default, so the listener
    opens its port to any IPv4 address on the load balancer's security
    group. *)
Definition addListener (alb : ConstructPath) (id : string) (port : Z)
    (protocol : elbv2.ApplicationProtocol)
    (defaultAction : elbv2.ListenerAction) : Build ConstructPath :=
  bind (construct (inside alb) id
          (Listener {| elbv2.loadBalancer := alb;
                       elbv2.listenerPort := port;
                       elbv2.listenerProtocol := protocol;
                       elbv2.defaultAction := defaultAction |}))
       (fun listener =>
  bind (loadBalancerSecurityGroup alb) (fun sg =>
  bind (addIngressRule sg ec2.anyIpv4 (ec2.tcp port)) (fun _ =>
  ret listener))).

Record EcsLoadBalancerTarget := {
  targetService : ConstructPath;
  targetOptions : ecs.LoadBalancerTargetOptions
}.

(** The containers declared in the scope of a task definition. *)
Definition containersOf (s : Stack) (taskDefinition : ConstructPath)
  : list ecs.ContainerDefinition :=
  flat_map (fun pc =>
              match snd pc with
              | Container d =>
                  if String.prefix (taskDefinition ++ "/") (fst pc)
                  then [d] else []
              | _ => []
              end) (tree s).

(** The container of a task definition that bears a given name. *)
Definition findContainer (s : Stack) (taskDefinition : ConstructPath)
    (containerName : string) : option ecs.ContainerDefinition :=
  find (fun d => String.eqb (ecs.containerName d) containerName)
       (containersOf s taskDefinition).

Definition mapsPort (d : ecs.ContainerDefinition) (port : Z) : bool :=
  existsb (fun m => ecs.containerPort m =? port) (ecs.portMappings d).

(** [service.loadBalancerTarget(options)]: the service seen as a load
    balancer target; nothing is attached yet.  The options are checked
    against the service's task definition: it must hold a container of the
    given name, and that container a mapping of the given port for the
    given protocol (a mapping that names no protocol, as the source's, is
    a TCP one). *)
Definition loadBalancerTarget (service : ConstructPath)
    (options : ecs.LoadBalancerTargetOptions)
  : Build EcsLoadBalancerTarget :=
  fun s =>
    match lookup service (tree s) with
    | Some (Service v) =>
        match findContainer s (ecs.taskDefinition v)
                            (ecs.lbContainerName options) with
        | None => inl (NoSuchContainer (ecs.lbContainerName options))
        | Some d =>
            if match ecs.lbProtocol options with
               | ecs.TCP => mapsPort d (ecs.lbContainerPort options)
               | ecs.UDP => false
               end
            then inr ({| targetService := service;
                         targetOptions := options |}, s)
            else inl (NoPortMapping (ecs.lbContainerName options)
                                    (ecs.lbContainerPort options))
        end
    | _ => inl (NoSuchConstruct service)
    end.

Definition forwardsTo (a : elbv2.ListenerAction) (tg : ConstructPath)
  : bool :=
  match a with
  | elbv2.forward tgs => existsb (String.eqb tg) tgs
  | elbv2.fixedResponse _ _ => false
  end.

(** The listeners that hand requests to a target group, by one of their
    rules or by their default action. *)
Definition registeredListeners (t : Tree) (tg : ConstructPath)
  : list ConstructPath :=
  flat_map (fun pc =>
              match snd pc with
              | Listener l =>
                  if forwardsTo (elbv2.defaultAction l) tg
                  then [fst pc] else []
              | ListenerRule r =>
                  if forwardsTo (elbv2.action r) tg
                  then [elbv2.listener r] else []
              | _ => []
              end) t.

Definition listenerSecurityGroup (listener : ConstructPath)
  : Build ConstructPath :=
  fun s =>
    match lookup listener (tree s) with
    | Some (Listener l) => loadBalancerSecurityGroup (elbv2.loadBalancer l) s
    | _ => inl (NoSuchConstruct listener)
    end.

Definition serviceSecurityGroups (service : ConstructPath)
  : Build (list ConstructPath) :=
  fun s =>
    match lookup service (tree s) with
    | Some (Service v) => inr (ecs.securityGroups v, s)
    | _ => inl (NoSuchConstruct service)
    end.

(** [targetGroup.registerConnectable(service, port)]: every listener that
    already hands requests to the target group is told of the service, and
    each security group of the service admits the security group of that
    listener's load balancer on the port.  The source attaches the service
    after both listener rules are declared. *)
Definition registerConnectable (targetGroup service : ConstructPath)
    (port : Z) : Build unit :=
  fun s =>
    forEach (registeredListeners (tree s) targetGroup) (fun listener =>
      bind (listenerSecurityGroup listener) (fun lbSg =>
      bind (serviceSecurityGroups service) (fun sgs =>
      forEach sgs (fun sg =>
        addIngressRule sg (ec2.fromSecurityGroup lbSg) (ec2.tcp port)))))
      s.

(** [target.attachToApplicationTargetGroup(targetGroup)]: the service is
    made reachable from the listeners of [targetGroup] on the target's
    container port, and registers its tasks in [targetGroup], with the
    target's options. *)
Definition attachToApplicationTargetGroup (target : EcsLoadBalancerTarget)
    (targetGroup : ConstructPath) : Build unit :=
  bind (registerConnectable targetGroup (targetService target)
          (ecs.lbContainerPort (targetOptions target))) (fun _ =>
  mutate (targetService target) (fun c =>
    match c with
    | Service v =>
        Service
          {| ecs.cluster := ecs.cluster v;
             ecs.taskDefinition := ecs.taskDefinition v;
             ecs.platformVersion := ecs.platformVersion v;
             ecs.desiredCount := ecs.desiredCount v;
             ecs.assignPublicIp := ecs.assignPublicIp v;
             ecs.securityGroups := ecs.securityGroups v;
             ecs.vpcSubnets := ecs.vpcSubnets v;
             ecs.deploymentStrategy := ecs.deploymentStrategy v;
             ecs.bakeTime := ecs.bakeTime v;
             ecs.loadBalancers :=
               (ecs.loadBalancers v ++
                [{| ecs.targetGroup := targetGroup;
                    ecs.target := targetOptions target |}])%list |}
    | _ => c
    end)).

(** ** The constructor of [IacStack] *)

Local Open Scope build_scope.

(** The fixed response both listeners declare as their default action. *)
Definition notFound : elbv2.ListenerAction :=
  elbv2.fixedResponse 404
    {| elbv2.contentType := Some "text/plain";
       elbv2.messageBody := Some "Not Found" |}.

(** The health check written out in both target groups of the source. *)
Definition healthCheckOf (path port : string) (protocol : elbv2.Protocol)
  : elbv2.HealthCheck :=
  {| elbv2.enabled := None;
     elbv2.healthyHttpCodes := None;
     elbv2.healthyThresholdCount := None;
     elbv2.unhealthyThresholdCount := None;
     elbv2.interval := None;
     elbv2.timeout := None;
     elbv2.path := Some path;
     elbv2.port := Some port;
     elbv2.protocol := Some protocol |}.

Definition constructor : Build unit :=
  (* VPC *)
  vpc <- construct this "Vpc"
    (Vpc {| ec2.maxAzs := 2;
            ec2.natGateways := 1;
            ec2.subnetConfiguration :=
              [ {| ec2.cidrMask := 24;
                   ec2.name := "Public";
                   ec2.subnetType := ec2.PUBLIC |};
                {| ec2.cidrMask := 24;
                   ec2.name := "Private";
                   ec2.subnetType := ec2.PRIVATE_WITH_EGRESS |} ] |}) ;;
  (* ECS Cluster *)
  cluster <- construct this "Cluster"
    (Cluster {| ecs.clusterVpc := vpc |}) ;;
  (* ECS Task Execution Role *)
  taskExecutionRole <- construct this "TaskExecutionRole"
    (Role {| iam.assumedBy := iam.ServicePrincipal "ecs-tasks.amazonaws.com";
             iam.managedPolicies :=
               [ iam.fromAwsManagedPolicyName
                   "service-role/AmazonECSTaskExecutionRolePolicy" ] |}) ;;
  (* ECS Task Definition *)
  taskDefinition <- construct this "TaskDefinition"
    (TaskDefinition {| ecs.cpu := 256;
                       ecs.memoryLimitMiB := 512;
                       ecs.executionRole := taskExecutionRole |}) ;;
  appContainer <- addContainer taskDefinition "App" "app"
    {| ecs.assetDirectory := "../../server/";
       ecs.platform := ecs.LINUX_AMD64 |}
    true (ecs.awsLogs "ecs-blue-green") ;;
  addPortMappings appContainer {| ecs.containerPort := 80 |} ;;;
  (* Security Group for ECS *)
  appSg <- construct this "AppSg"
    (SecurityGroup {| ec2.vpc := vpc;
                      ec2.allowAllOutbound := true;
                      ec2.ingressRules := [] |}) ;;
  (* Infrastructure Role for ECS *)
  infrastructureRole <- construct this "InfrastructureRole"
    (Role {| iam.assumedBy := iam.ServicePrincipal "ecs.amazonaws.com";
             iam.managedPolicies :=
               [ iam.fromAwsManagedPolicyName
                   "AmazonECSInfrastructureRolePolicyForLoadBalancers" ] |}) ;;
  (* ECS Service *)
  service <- construct this "Service"
    (Service {| ecs.cluster := cluster;
                ecs.taskDefinition := taskDefinition;
                ecs.platformVersion := ecs.VERSION1_4;
                ecs.desiredCount := 1;
                ecs.assignPublicIp := false;
                ecs.securityGroups := [appSg];
                ecs.vpcSubnets :=
                  selectSubnets vpc {| ec2.subnetGroupName := "Private" |};
                ecs.deploymentStrategy := ecs.BLUE_GREEN;
                ecs.bakeTime := Some (cdk.minutes 2);
                ecs.loadBalancers := [] |}) ;;
  (* Security Group of ALB *)
  albSg <- construct this "AlbSg"
    (SecurityGroup {| ec2.vpc := vpc;
                      ec2.allowAllOutbound := true;
                      ec2.ingressRules := [] |}) ;;
  addIngressRule albSg ec2.anyIpv4 (ec2.tcp 80) ;;;
  (* ALB *)
  alb <- construct this "Alb"
    (LoadBalancer
       {| elbv2.albVpc := vpc;
          elbv2.internetFacing := true;
          elbv2.securityGroup := albSg;
          elbv2.albVpcSubnets :=
            selectSubnets vpc {| ec2.subnetGroupName := "Public" |} |}) ;;
  (* ALB Target Group Blue *)
  appTargetGroupBlue <- construct this "AppTargetGroupBlue"
    (TargetGroup
       {| elbv2.targetGroupName := "AppTargetGroupBlue";
          elbv2.tgVpc := vpc;
          elbv2.tgProtocol := elbv2.HTTP;
          elbv2.targetType := elbv2.IP;
          elbv2.healthCheck := healthCheckOf "/" "80" elbv2.pHTTP |}) ;;
  (* ALB Target Group Green *)
  appTargetGroupGreen <- construct this "AppTargetGroupGreen"
    (TargetGroup
       {| elbv2.targetGroupName := "AppTargetGroupGreen";
          elbv2.tgVpc := vpc;
          elbv2.tgProtocol := elbv2.HTTP;
          elbv2.targetType := elbv2.IP;
          elbv2.healthCheck := healthCheckOf "/" "80" elbv2.pHTTP |}) ;;
  (* ALB Listener *)
  albListener <- addListener alb "AlbListener" 80 elbv2.HTTP
    (elbv2.fixedResponse 404
       {| elbv2.contentType := Some "text/plain";
          elbv2.messageBody := Some "Not Found" |}) ;;
  albListenerRule <- construct this "AlbListenerRule"
    (ListenerRule
       {| elbv2.listener := albListener;
          elbv2.priority := 1;
          elbv2.conditions := [elbv2.pathPatterns ["*"]];
          elbv2.action := elbv2.forward [appTargetGroupBlue] |}) ;;
  albTestListener <- addListener alb "AlbTestListener" 8080 elbv2.HTTP
    (elbv2.fixedResponse 404
       {| elbv2.contentType := Some "text/plain";
          elbv2.messageBody := Some "Not Found" |}) ;;
  albTestListenerRule <- construct this "AlbTestListenerRule"
    (ListenerRule
       {| elbv2.listener := albTestListener;
          elbv2.priority := 1;
          elbv2.conditions := [elbv2.pathPatterns ["*"]];
          elbv2.action := elbv2.forward [appTargetGroupGreen] |}) ;;
  target <-
    loadBalancerTarget service
      {| ecs.lbContainerName := "app";
         ecs.lbContainerPort := 80;
         ecs.lbProtocol := ecs.TCP;
         ecs.alternateTarget :=
           Some {| ecs.alternateTargetId := "AlternateTarget";
                   ecs.alternateTargetGroup := appTargetGroupGreen;
                   ecs.productionListener :=
                     Some (ecs.applicationListenerRule albListenerRule);
                   ecs.testListener :=
                     Some (ecs.applicationListenerRule albTestListenerRule);
                   ecs.role := Some infrastructureRole |} |} ;;
  attachToApplicationTargetGroup target appTargetGroupBlue.

(** [new IacStack(scope, id, props)]: the constructor body on the empty
    tree of the stack that [super(scope, id, props)] has created.  What
    [super] checks of the id and of the stack name is the library's and is
    not modelled: [id] and [props] stand for ones that [super] accepted. *)
Definition IacStack (id : string) (props : option cdk.StackProps)
  : BuildError + Stack :=
  match constructor {| stackId := id; stackProps := props; tree := [] |} with
  | inl e => inl e
  | inr (_, s) => inr s
  end.

Local Close Scope build_scope.

(** ** Reading the tree *)

Definition listeners (s : Stack)
  : list (ConstructPath * elbv2.ApplicationListenerProps) :=
  flat_map (fun pc => match snd pc with
                      | Listener l => [(fst pc, l)]
                      | _ => []
                      end) (tree s).

Definition listenerRules (s : Stack)
  : list (ConstructPath * elbv2.ApplicationListenerRuleProps) :=
  flat_map (fun pc => match snd pc with
                      | ListenerRule r => [(fst pc, r)]
                      | _ => []
                      end) (tree s).

Definition targetGroups (s : Stack)
  : list (ConstructPath * elbv2.ApplicationTargetGroupProps) :=
  flat_map (fun pc => match snd pc with
                      | TargetGroup g => [(fst pc, g)]
                      | _ => []
                      end) (tree s).

Definition services (s : Stack) : list (ConstructPath * ecs.FargateService) :=
  flat_map (fun pc => match snd pc with
                      | Service v => [(fst pc, v)]
                      | _ => []
                      end) (tree s).

Definition targetGroup (s : Stack) (p : ConstructPath)
  : option elbv2.ApplicationTargetGroupProps :=
  match lookup p (tree s) with
  | Some (TargetGroup g) => Some g
  | _ => None
  end.

Definition listenerRule (s : Stack) (p : ConstructPath)
  : option elbv2.ApplicationListenerRuleProps :=
  match lookup p (tree s) with
  | Some (ListenerRule r) => Some r
  | _ => None
  end.

Definition listenerOf (s : Stack) (p : ConstructPath)
  : option elbv2.ApplicationListenerProps :=
  match lookup p (tree s) with
  | Some (Listener l) => Some l
  | _ => None
  end.

(** The rules attached to the listener at path [l]. *)
Definition rulesOf (s : Stack) (l : ConstructPath)
  : list elbv2.ApplicationListenerRuleProps :=
  map snd (filter (fun pr => String.eqb (elbv2.listener (snd pr)) l)
                  (listenerRules s)).

(** The tree with every listener rule taken away. *)
Definition withoutRules (s : Stack) : Stack :=
  {| stackId := stackId s;
     stackProps := stackProps s;
     tree := filter (fun pc => match snd pc with
                               | ListenerRule _ => false
                               | _ => true
                               end) (tree s) |}.

(** ** The blue/green wiring of the service

    The service's load balancer attachment names the target group that
    receives the tasks first (the one the target is attached to) and, in
    its alternate target, the other target group and the two listener
    rules that the deployment moves between them. *)

Inductive RouteName := production | test.

Definition attachment (s : Stack) : option ecs.LoadBalancerAttachment :=
  match services s with
  | (_, v) :: _ => hd_error (ecs.loadBalancers v)
  | [] => None
  end.

Definition alternate (s : Stack) : option ecs.AlternateTarget :=
  match attachment s with
  | Some a => ecs.alternateTarget (ecs.target a)
  | None => None
  end.

(** The listener rule that carries a route. *)
Definition routeRule (s : Stack) (r : RouteName) : option ConstructPath :=
  match alternate s with
  | Some alt =>
      match (match r with
             | production => ecs.productionListener alt
             | test => ecs.testListener alt
             end) with
      | Some (ecs.applicationListenerRule p) => Some p
      | None => None
      end
  | None => None
  end.

(** The target groups a route forwards to. *)
Definition resolve (s : Stack) (r : RouteName) : option (list ConstructPath) :=
  match routeRule s r with
  | Some p =>
      match listenerRule s p with
      | Some rule =>
          match elbv2.action rule with
          | elbv2.forward tgs => Some tgs
          | elbv2.fixedResponse _ _ => None
          end
      | None => None
      end
  | None => None
  end.

(** The listener a route's rule is attached to. *)
Definition routeListener (s : Stack) (r : RouteName)
  : option elbv2.ApplicationListenerProps :=
  match routeRule s r with
  | Some p =>
      match listenerRule s p with
      | Some rule => listenerOf s (elbv2.listener rule)
      | None => None
      end
  | None => None
  end.

(** ** Request handling by the load balancer

    The stack only declares listeners, rules and actions; serving requests
    is the work of the application load balancer it configures.  This
    section gives the declarations their meaning, following the documented
    behaviour of the service: the listener of the request's port evaluates
    its rules by ascending priority, the first rule whose conditions all
    hold performs its action, and the default action is performed when none
    does.  A path pattern is matched with [*] for any run of characters and
    [?] for any one character. *)

Record Request := { reqPort : Z; reqPath : string }.

Inductive Outcome :=
| NoListener
| Responded (status : Z) (contentType body : option string)
| ForwardedTo (pools : list ConstructPath).

Fixpoint glob (pat s : string) : bool :=
  match pat with
  | EmptyString =>
      match s with EmptyString => true | String _ _ => false end
  | String c pat' =>
      if Ascii.eqb c "*" then
        (fix star (s : string) : bool :=
           glob pat' s ||
           match s with
           | EmptyString => false
           | String _ s' => star s'
           end) s
      else
        match s with
        | EmptyString => false
        | String d s' => (Ascii.eqb c "?" || Ascii.eqb c d) && glob pat' s'
        end
  end.

Definition conditionHolds (req : Request) (c : elbv2.ListenerCondition)
  : bool :=
  match c with
  | elbv2.pathPatterns values =>
      existsb (fun pat => glob pat (reqPath req)) values
  end.

Definition ruleMatches (req : Request)
    (r : elbv2.ApplicationListenerRuleProps) : bool :=
  forallb (conditionHolds req) (elbv2.conditions r).

(** The matching rule of lowest priority, the earlier one on a tie. *)
Fixpoint selectRule (req : Request)
    (rs : list elbv2.ApplicationListenerRuleProps)
  : option elbv2.ApplicationListenerRuleProps :=
  match rs with
  | [] => None
  | r :: rs' =>
      if ruleMatches req r then
        match selectRule req rs' with
        | Some r' =>
            if elbv2.priority r' <? elbv2.priority r then Some r' else Some r
        | None => Some r
        end
      else selectRule req rs'
  end.

Definition perform (a : elbv2.ListenerAction) : Outcome :=
  match a with
  | elbv2.fixedResponse code options =>
      Responded code (elbv2.contentType options) (elbv2.messageBody options)
  | elbv2.forward tgs => ForwardedTo tgs
  end.

(** One listener serving a request with the rules [rs]. *)
Definition serve (l : elbv2.ApplicationListenerProps)
    (rs : list elbv2.ApplicationListenerRuleProps) (req : Request)
  : Outcome :=
  match selectRule req rs with
  | Some r => perform (elbv2.action r)
  | None => perform (elbv2.defaultAction l)
  end.

Definition listenerOnPort (s : Stack) (port : Z)
  : option (ConstructPath * elbv2.ApplicationListenerProps) :=
  find (fun pl => elbv2.listenerPort (snd pl) =? port) (listeners s).

(** The load balancer of the stack serving a request. *)
Definition handle (s : Stack) (req : Request) : Outcome :=
  match listenerOnPort s (reqPort req) with
  | Some (p, l) => serve l (rulesOf s p) req
  | None => NoListener
  end.

(** ** Reading the rest of the tree

    Readers for the constructs the load balancer does not serve from: the
    network, the roles, the task definition with its container, and the
    security groups. *)

Inductive Kind :=
| KVpc | KCluster | KRole | KTaskDefinition | KContainer | KSecurityGroup
| KService | KLoadBalancer | KTargetGroup | KListener | KListenerRule.

Definition kindOf (c : Construct) : Kind :=
  match c with
  | Vpc _ => KVpc
  | Cluster _ => KCluster
  | Role _ => KRole
  | TaskDefinition _ => KTaskDefinition
  | Container _ => KContainer
  | SecurityGroup _ => KSecurityGroup
  | Service _ => KService
  | LoadBalancer _ => KLoadBalancer
  | TargetGroup _ => KTargetGroup
  | Listener _ => KListener
  | ListenerRule _ => KListenerRule
  end.

(** The constructs an action hands requests to. *)
Definition actionReferences (a : elbv2.ListenerAction)
  : list (Kind * ConstructPath) :=
  match a with
  | elbv2.fixedResponse _ _ => []
  | elbv2.forward tgs => map (fun tg => (KTargetGroup, tg)) tgs
  end.

Definition ruleConfigurationReferences
    (c : option ecs.ListenerRuleConfiguration) : list (Kind * ConstructPath) :=
  match c with
  | Some (ecs.applicationListenerRule p) => [(KListenerRule, p)]
  | None => []
  end.

Definition alternateReferences (alt : option ecs.AlternateTarget)
  : list (Kind * ConstructPath) :=
  match alt with
  | Some t =>
      ((KTargetGroup, ecs.alternateTargetGroup t)
       :: ruleConfigurationReferences (ecs.productionListener t)
       ++ ruleConfigurationReferences (ecs.testListener t)
       ++ match ecs.role t with
          | Some r => [(KRole, r)]
          | None => []
          end)%list
  | None => []
  end.

(** Every construct a construct's props refer to, with the kind of
    construct the props expect there. *)
Definition references (c : Construct) : list (Kind * ConstructPath) :=
  (match c with
   | Vpc _ => []
   | Cluster p => [(KVpc, ecs.clusterVpc p)]
   | Role _ => []
   | TaskDefinition p => [(KRole, ecs.executionRole p)]
   | Container _ => []
   | SecurityGroup p =>
       (KVpc, ec2.vpc p)
       :: flat_map (fun r => match fst r with
                             | ec2.fromSecurityGroup g => [(KSecurityGroup, g)]
                             | ec2.anyIpv4 => []
                             end) (ec2.ingressRules p)
   | Service p =>
       (KCluster, ecs.cluster p)
       :: (KTaskDefinition, ecs.taskDefinition p)
       :: map (fun g => (KSecurityGroup, g)) (ecs.securityGroups p)
       ++ flat_map (fun a =>
                      (KTargetGroup, ecs.targetGroup a)
                      :: alternateReferences
                           (ecs.alternateTarget (ecs.target a)))
                   (ecs.loadBalancers p)
   | LoadBalancer p =>
       [(KVpc, elbv2.albVpc p); (KSecurityGroup, elbv2.securityGroup p)]
   | TargetGroup p => [(KVpc, elbv2.tgVpc p)]
   | Listener p =>
       (KLoadBalancer, elbv2.loadBalancer p)
       :: actionReferences (elbv2.defaultAction p)
   | ListenerRule p =>
       (KListener, elbv2.listener p) :: actionReferences (elbv2.action p)
   end)%list.

(** A reference is sound in a stack when a construct of the expected kind
    sits at the path. *)
Definition resolves (s : Stack) (r : Kind * ConstructPath) : Prop :=
  option_map kindOf (lookup (snd r) (tree s)) = Some (fst r).

(** The VPC a construct is placed in, for the constructs that name one. *)
Definition vpcReference (c : Construct) : option ConstructPath :=
  match c with
  | Cluster p => Some (ecs.clusterVpc p)
  | SecurityGroup p => Some (ec2.vpc p)
  | LoadBalancer p => Some (elbv2.albVpc p)
  | TargetGroup p => Some (elbv2.tgVpc p)
  | _ => None
  end.

Definition vpcs (s : Stack) : list (ConstructPath * ec2.VpcProps) :=
  flat_map (fun pc => match snd pc with
                      | Vpc v => [(fst pc, v)]
                      | _ => []
                      end) (tree s).

(** The subnet group of a VPC that a selection by group name picks. *)
Definition subnetGroup (s : Stack) (vpc : ConstructPath)
    (sel : ec2.SubnetSelection) : option ec2.SubnetConfiguration :=
  match lookup vpc (tree s) with
  | Some (Vpc v) =>
      find (fun g => String.eqb (ec2.name g) (ec2.subnetGroupName sel))
           (ec2.subnetConfiguration v)
  | _ => None
  end.

Definition clusterOf (s : Stack) (p : ConstructPath)
  : option ecs.ClusterProps :=
  match lookup p (tree s) with
  | Some (Cluster c) => Some c
  | _ => None
  end.

Definition loadBalancerOf (s : Stack) (p : ConstructPath)
  : option elbv2.ApplicationLoadBalancerProps :=
  match lookup p (tree s) with
  | Some (LoadBalancer a) => Some a
  | _ => None
  end.

Definition roleOf (s : Stack) (p : ConstructPath) : option iam.RoleProps :=
  match lookup p (tree s) with
  | Some (Role r) => Some r
  | _ => None
  end.

Definition securityGroupOf (s : Stack) (p : ConstructPath)
  : option ec2.SecurityGroup :=
  match lookup p (tree s) with
  | Some (SecurityGroup g) => Some g
  | _ => None
  end.

Definition taskDefinitionOf (s : Stack) (p : ConstructPath)
  : option ecs.FargateTaskDefinition :=
  match lookup p (tree s) with
  | Some (TaskDefinition t) => Some t
  | _ => None
  end.

(** A port number written as the decimal string a health check takes. *)
Definition portString (port : Z) : string :=
  NilZero.string_of_int (Z.to_int port).

(** * Properties *)

(** The tree the constructor builds; it depends neither on the stack's id
    nor on its props. *)
Definition synthesized : Tree :=
  Eval vm_compute in
    match IacStack "" None with
    | inr s => tree s
    | inl _ => []
    end.

(** The stack of id [id] and props [props] holding that tree. *)
Definition built (id : string) (props : option cdk.StackProps) : Stack :=
  {| stackId := id; stackProps := props; tree := synthesized |}.

(** On the stack that [super] has created, the constructor body never
    fails: no construct id is empty or declared twice in one scope, every
    mutated construct exists, the port mapping names a port, and the load
    balancer target finds its container and port. *)
Lemma IacStack_built (id : string) (props : option cdk.StackProps) :
  IacStack id props = inr (built id props).
Proof. vm_compute. reflexivity. Qed.

Lemma IacStack_paths_distinct (id : string) (props : option cdk.StackProps)
    (s : Stack) :
  IacStack id props = inr s -> NoDup (map fst (tree s)).
Proof.
  rewrite IacStack_built. intros H. injection H as <-. cbn [tree].
  unfold synthesized. cbn [map fst].
  repeat (constructor;
          [ cbn [In]; intros H;
            repeat (destruct H as [H | H]; [discriminate H | ]); exact H | ]).
  constructor.
Qed.

Section PathPatterns.

(** [*] alone matches every path, the empty one too. *)
Lemma glob_star (s : string) : glob "*" s = true.
Proof.
  induction s as [| c s IH]; [reflexivity | ].
  cbn in IH |- *. exact IH.
Qed.

Lemma glob_empty (s : string) : glob "" s = true <-> s = "".
Proof. destruct s; cbn; split; intros H; congruence. Qed.

(** [?] matches any one character. *)
Lemma glob_question (c : ascii) : glob "?" (String c "") = true.
Proof. reflexivity. Qed.

End PathPatterns.

Section RuleSelection.

Variable req : Request.

Lemma selectRule_none (rs : list elbv2.ApplicationListenerRuleProps) :
  selectRule req rs = None <->
  (forall r, In r rs -> ruleMatches req r = false).
Proof.
  induction rs as [| r rs IH]; cbn [selectRule In].
  - split; [intros _ r [] | reflexivity].
  - destruct (ruleMatches req r) eqn:Hm.
    + split.
      * destruct (selectRule req rs) as [r' |];
          [destruct (elbv2.priority r' <? elbv2.priority r) | ];
          discriminate.
      * intros H. specialize (H r (or_introl eq_refl)). congruence.
    + rewrite IH. split.
      * intros H r' [<- | Hin]; [exact Hm | exact (H r' Hin)].
      * intros H r' Hin. apply H. right. exact Hin.
Qed.

(** A selected rule is one of the listener's rules and matches. *)
Lemma selectRule_some (rs : list elbv2.ApplicationListenerRuleProps)
    (r : elbv2.ApplicationListenerRuleProps) :
  selectRule req rs = Some r -> In r rs /\ ruleMatches req r = true.
Proof.
  revert r. induction rs as [| a rs IH]; cbn [selectRule In]; intros r H.
  - discriminate H.
  - destruct (ruleMatches req a) eqn:Hm.
    + destruct (selectRule req rs) as [r' |].
      * destruct (elbv2.priority r' <? elbv2.priority a).
        -- injection H as <-. destruct (IH r' eq_refl). auto.
        -- injection H as <-. auto.
      * injection H as <-. auto.
    + destruct (IH r H). auto.
Qed.

(** No other matching rule has a lower priority than the selected one. *)
Lemma selectRule_lowest (rs : list elbv2.ApplicationListenerRuleProps)
    (r r' : elbv2.ApplicationListenerRuleProps) :
  selectRule req rs = Some r -> In r' rs -> ruleMatches req r' = true ->
  elbv2.priority r <= elbv2.priority r'.
Proof.
  revert r. induction rs as [| a rs IH]; cbn [selectRule In];
    intros r H Hin Hm'; [contradiction | ].
  destruct (ruleMatches req a) eqn:Hm.
  - destruct (selectRule req rs) as [b |] eqn:Hsel.
    + destruct (Z.ltb_spec (elbv2.priority b) (elbv2.priority a)) as [Hlt | Hge];
        injection H as <-.
      * destruct Hin as [<- | Hin]; [lia | exact (IH b eq_refl Hin Hm')].
      * destruct Hin as [<- | Hin]; [lia | ].
        specialize (IH b eq_refl Hin Hm'). lia.
    + injection H as <-. destruct Hin as [<- | Hin]; [lia | ].
      apply selectRule_none with (r := r') in Hsel; [congruence | exact Hin].
  - destruct Hin as [<- | Hin]; [congruence | exact (IH r H Hin Hm')].
Qed.

Lemma no_match_spec (rs : list elbv2.ApplicationListenerRuleProps) :
  existsb (ruleMatches req) rs = false <->
  (forall r, In r rs -> ruleMatches req r = false).
Proof.
  split.
  - intros H r Hin. destruct (ruleMatches req r) eqn:Hm; [ | reflexivity].
    rewrite <- H. symmetry. apply existsb_exists. exists r. auto.
  - intros H. destruct (existsb (ruleMatches req) rs) eqn:He; [ | reflexivity].
    apply existsb_exists in He. destruct He as (r & Hin & Hm).
    rewrite (H r Hin) in Hm. discriminate Hm.
Qed.

Lemma serve_default (l : elbv2.ApplicationListenerProps)
    (rs : list elbv2.ApplicationListenerRuleProps) :
  existsb (ruleMatches req) rs = false ->
  serve l rs req = perform (elbv2.defaultAction l).
Proof.
  intros H. unfold serve.
  rewrite (proj2 (selectRule_none rs) (proj1 (no_match_spec rs) H)).
  reflexivity.
Qed.

(** When some rule matches, the request gets that rule's action and the
    default action is not consulted. *)
Lemma serve_rule (l : elbv2.ApplicationListenerProps)
    (rs : list elbv2.ApplicationListenerRuleProps) :
  existsb (ruleMatches req) rs = true ->
  exists r, In r rs /\ ruleMatches req r = true /\
            serve l rs req = perform (elbv2.action r).
Proof.
  intros H. unfold serve.
  destruct (selectRule req rs) as [r |] eqn:Hsel.
  - exists r. destruct (selectRule_some rs r Hsel). auto.
  - pose proof (proj2 (no_match_spec rs) (proj1 (selectRule_none rs) Hsel)).
    congruence.
Qed.

End RuleSelection.

(** ** The declared state of the load balancer *)

Section Declared.

Variables (id : string) (props : option cdk.StackProps).

Lemma declared_listeners :
  map (fun pl => (fst pl, elbv2.listenerPort (snd pl)))
      (listeners (built id props)) =
  [("Alb/AlbListener", 80); ("Alb/AlbTestListener", 8080)].
Proof. reflexivity. Qed.

(** On either listener, the declared rule matches every request, so the
    default action is only reached once the rule is gone. *)
Lemma declared_rules_match_all (req : Request) (l : ConstructPath)
    (r : elbv2.ApplicationListenerRuleProps) :
  In r (rulesOf (built id props) l) -> ruleMatches req r = true.
Proof.
  unfold rulesOf. rewrite in_map_iff. intros ((p, r') & <- & Hin).
  apply filter_In in Hin. destruct Hin as (Hin & _).
  cbn in Hin.
  destruct Hin as [Hin | [Hin | []]]; injection Hin as _ <-;
    cbn -[glob]; rewrite glob_star; reflexivity.
Qed.

Lemma handle_production (path : string) :
  handle (built id props) {| reqPort := 80; reqPath := path |} =
  ForwardedTo ["AppTargetGroupBlue"].
Proof.
  unfold handle, serve.
  cbn -[glob]. rewrite glob_star. reflexivity.
Qed.

Lemma handle_test (path : string) :
  handle (built id props) {| reqPort := 8080; reqPath := path |} =
  ForwardedTo ["AppTargetGroupGreen"].
Proof.
  unfold handle, serve.
  cbn -[glob]. rewrite glob_star. reflexivity.
Qed.

(** In the declared state each route forwards to exactly one target
    group. *)
Lemma declared_routes_single (r : RouteName) :
  exists tg,
    resolve (built id props) r = Some [tg] /\
    targetGroup (built id props) tg <> None.
Proof.
  destruct r; eexists; (split; [reflexivity | discriminate]).
Qed.

End Declared.

(** ** The bake time of the service *)

(** C7: whatever id and props the stack is created with, its one service
    is deployed blue/green with a bake time of [Duration.minutes(2)], the
    literal of the source: exactly 2 minutes, that is 120 seconds. *)
Theorem bakeTime_two_minutes (id : string) (props : option cdk.StackProps) :
  exists s v,
    IacStack id props = inr s /\
    services s = [("Service", v)] /\
    ecs.deploymentStrategy v = ecs.BLUE_GREEN /\
    ecs.bakeTime v = Some (cdk.minutes 2) /\
    option_map cdk.unit (ecs.bakeTime v) = Some cdk.Minutes /\
    option_map cdk.amount (ecs.bakeTime v) = Some 2 /\
    cdk.toMinutes (cdk.minutes 2) = Some 2 /\
    cdk.toSeconds (cdk.minutes 2) = Some 120.
Proof.
  eexists. eexists. split; [apply IacStack_built | ].
  split; [reflexivity | ].
  repeat split.
Qed.

(** ** The initial routes *)

(** C8: in the state the program declares, the production route is the
    rule of priority 1 and path pattern [*] on the listener of port 80 and
    forwards to the blue target group; the test route is the rule of
    priority 1 and path pattern [*] on the listener of port 8080 and
    forwards to the green target group.  The service's tasks are attached
    to blue, and green is the alternate target group.  Every request on
    port 80 reaches blue and every request on port 8080 reaches green. *)
Theorem initial_routes (id : string) (props : option cdk.StackProps) :
  exists s,
    IacStack id props = inr s /\
    routeRule s production = Some "AlbListenerRule" /\
    listenerRule s "AlbListenerRule" =
      Some {| elbv2.listener := "Alb/AlbListener";
              elbv2.priority := 1;
              elbv2.conditions := [elbv2.pathPatterns ["*"]];
              elbv2.action := elbv2.forward ["AppTargetGroupBlue"] |} /\
    option_map elbv2.listenerPort (routeListener s production) = Some 80 /\
    resolve s production = Some ["AppTargetGroupBlue"] /\
    routeRule s test = Some "AlbTestListenerRule" /\
    listenerRule s "AlbTestListenerRule" =
      Some {| elbv2.listener := "Alb/AlbTestListener";
              elbv2.priority := 1;
              elbv2.conditions := [elbv2.pathPatterns ["*"]];
              elbv2.action := elbv2.forward ["AppTargetGroupGreen"] |} /\
    option_map elbv2.listenerPort (routeListener s test) = Some 8080 /\
    resolve s test = Some ["AppTargetGroupGreen"] /\
    option_map ecs.targetGroup (attachment s) = Some "AppTargetGroupBlue" /\
    option_map ecs.alternateTargetGroup (alternate s) =
      Some "AppTargetGroupGreen" /\
    option_map elbv2.targetGroupName (targetGroup s "AppTargetGroupBlue") =
      Some "AppTargetGroupBlue" /\
    option_map elbv2.targetGroupName (targetGroup s "AppTargetGroupGreen") =
      Some "AppTargetGroupGreen" /\
    (forall path, handle s {| reqPort := 80; reqPath := path |} =
                  ForwardedTo ["AppTargetGroupBlue"]) /\
    (forall path, handle s {| reqPort := 8080; reqPath := path |} =
                  ForwardedTo ["AppTargetGroupGreen"]).
Proof.
  eexists. split; [apply IacStack_built | ].
  repeat (split; [reflexivity | ]).
  split; intros path; [apply handle_production | apply handle_test].
Qed.

(** ** The default action of the listeners *)

(** C9: on each listener of the stack (the production listener on port 80
    and the test listener on port 8080), a request that matches none of the
    listener's rules is answered by the default action, a fixed response of
    status 404, content type text/plain and body "Not Found", and is
    forwarded to no target group; this is what every request on the
    listener's port gets once the listener rules are absent. *)
Theorem default_action_not_found
    (id : string) (props : option cdk.StackProps) (s : Stack)
    (p : ConstructPath) (l : elbv2.ApplicationListenerProps)
    (rs : list elbv2.ApplicationListenerRuleProps) (req : Request) :
  IacStack id props = inr s ->
  listenerOf s p = Some l ->
  existsb (ruleMatches req) rs = false ->
  (elbv2.listenerPort l = 80 \/ elbv2.listenerPort l = 8080) /\
  elbv2.defaultAction l = notFound /\
  serve l rs req = Responded 404 (Some "text/plain") (Some "Not Found") /\
  (forall pools, serve l rs req <> ForwardedTo pools) /\
  handle (withoutRules s)
         {| reqPort := elbv2.listenerPort l; reqPath := reqPath req |} =
    Responded 404 (Some "text/plain") (Some "Not Found").
Proof.
  rewrite IacStack_built. intros Hs Hl Hno. injection Hs as <-.
  rewrite (serve_default req l rs Hno).
  unfold listenerOf, built in Hl. cbn [tree] in Hl.
  destruct (lookup p synthesized) as [c |] eqn:Hp; [ | discriminate Hl].
  destruct c; try discriminate Hl. injection Hl as ->.
  unfold synthesized in Hp. cbn [lookup] in Hp.
  repeat match type of Hp with
         | (if ?b then _ else _) = _ => destruct b; [try discriminate Hp | ]
         end;
    try discriminate Hp;
    injection Hp as <-;
    cbn [elbv2.listenerPort elbv2.defaultAction perform
         elbv2.contentType elbv2.messageBody];
    (split; [auto | ]); (split; [reflexivity | ]); (split; [reflexivity | ]);
    (split; [intros pools; discriminate | reflexivity]).
Qed.

Lemma default_action_not_found_witness :
  serve {| elbv2.loadBalancer := "Alb";
           elbv2.listenerPort := 80;
           elbv2.listenerProtocol := elbv2.HTTP;
           elbv2.defaultAction := notFound |}
        [ {| elbv2.listener := "Alb/AlbListener";
             elbv2.priority := 1;
             elbv2.conditions := [elbv2.pathPatterns ["/api/*"]];
             elbv2.action := elbv2.forward ["AppTargetGroupBlue"] |} ]
        {| reqPort := 80; reqPath := "/health" |} =
    Responded 404 (Some "text/plain") (Some "Not Found") /\
  handle (withoutRules (built "IacStack" None))
         {| reqPort := 8080; reqPath := "/" |} =
    Responded 404 (Some "text/plain") (Some "Not Found").
Proof.
  split.
  - exact (proj1 (proj2 (proj2
      (default_action_not_found "IacStack" None
         (built "IacStack" None)
         "Alb/AlbListener"
         {| elbv2.loadBalancer := "Alb";
            elbv2.listenerPort := 80;
            elbv2.listenerProtocol := elbv2.HTTP;
            elbv2.defaultAction := notFound |}
         [ {| elbv2.listener := "Alb/AlbListener";
              elbv2.priority := 1;
              elbv2.conditions := [elbv2.pathPatterns ["/api/*"]];
              elbv2.action := elbv2.forward ["AppTargetGroupBlue"] |} ]
         {| reqPort := 80; reqPath := "/health" |}
         eq_refl eq_refl eq_refl)))).
  - exact (proj2 (proj2 (proj2 (proj2
      (default_action_not_found "IacStack" None
         (built "IacStack" None)
         "Alb/AlbTestListener"
         {| elbv2.loadBalancer := "Alb";
            elbv2.listenerPort := 8080;
            elbv2.listenerProtocol := elbv2.HTTP;
            elbv2.defaultAction := notFound |}
         [] {| reqPort := 8080; reqPath := "/" |}
         eq_refl eq_refl eq_refl))))).
Defined.

(** ** The health checks of the two target groups *)

(** C10: the blue and the green target group are declared with the same
    health check: path "/", port "80", protocol HTTP, and every other
    setting left unset, read field by field on both groups.  Both groups
    have protocol HTTP and target type IP.  So whatever rule turns a target
    group's configuration and an observation of its targets into a
    verdict, it gives green the verdict it gives blue. *)
Theorem health_checks_identical (id : string) (props : option cdk.StackProps) :
  exists s blue green,
    IacStack id props = inr s /\
    targetGroup s "AppTargetGroupBlue" = Some blue /\
    targetGroup s "AppTargetGroupGreen" = Some green /\
    map fst (targetGroups s) = ["AppTargetGroupBlue"; "AppTargetGroupGreen"] /\
    elbv2.path (elbv2.healthCheck blue) = Some "/" /\
    elbv2.port (elbv2.healthCheck blue) = Some "80" /\
    elbv2.protocol (elbv2.healthCheck blue) = Some elbv2.pHTTP /\
    elbv2.path (elbv2.healthCheck green) = Some "/" /\
    elbv2.port (elbv2.healthCheck green) = Some "80" /\
    elbv2.protocol (elbv2.healthCheck green) = Some elbv2.pHTTP /\
    elbv2.healthCheck blue =
      {| elbv2.enabled := None;
         elbv2.healthyHttpCodes := None;
         elbv2.healthyThresholdCount := None;
         elbv2.unhealthyThresholdCount := None;
         elbv2.interval := None;
         elbv2.timeout := None;
         elbv2.path := Some "/";
         elbv2.port := Some "80";
         elbv2.protocol := Some elbv2.pHTTP |} /\
    elbv2.healthCheck green =
      {| elbv2.enabled := None;
         elbv2.healthyHttpCodes := None;
         elbv2.healthyThresholdCount := None;
         elbv2.unhealthyThresholdCount := None;
         elbv2.interval := None;
         elbv2.timeout := None;
         elbv2.path := Some "/";
         elbv2.port := Some "80";
         elbv2.protocol := Some elbv2.pHTTP |} /\
    elbv2.healthCheck blue = elbv2.healthCheck green /\
    elbv2.tgProtocol blue = elbv2.HTTP /\
    elbv2.tgProtocol green = elbv2.HTTP /\
    elbv2.targetType blue = elbv2.IP /\
    elbv2.targetType green = elbv2.IP /\
    (forall (Observation : Type)
            (judge : elbv2.TargetType -> elbv2.ApplicationProtocol ->
                     elbv2.HealthCheck -> Observation -> bool)
            (o : Observation),
        judge (elbv2.targetType green) (elbv2.tgProtocol green)
              (elbv2.healthCheck green) o =
        judge (elbv2.targetType blue) (elbv2.tgProtocol blue)
              (elbv2.healthCheck blue) o).
Proof.
  do 3 eexists. split; [apply IacStack_built | ].
  do 2 (split; [reflexivity | ]).
  repeat (split; [reflexivity | ]).
  intros Observation judge o. reflexivity.
Qed.

(** * Further properties of the constructor *)

(** ** The constructor as a whole *)

(** X3: the constructor body reads neither the id nor the props of the
    stack.  Whenever two stacks are built, with whatever ids and props,
    they hold the same constructs under the same paths; each records its
    own id and props; and the paths are the sixteen of the source, in its
    order, pairwise distinct. *)
Theorem constructor_ignores_id_and_props
    (id id' : string) (props props' : option cdk.StackProps)
    (s s' : Stack) :
  IacStack id props = inr s ->
  IacStack id' props' = inr s' ->
  tree s = tree s' /\
  stackId s = id /\ stackProps s = props /\
  stackId s' = id' /\ stackProps s' = props' /\
  NoDup (map fst (tree s)) /\
  map fst (tree s) =
    [ "Vpc"; "Cluster"; "TaskExecutionRole"; "TaskDefinition";
      "TaskDefinition/App"; "AppSg"; "InfrastructureRole"; "Service";
      "AlbSg"; "Alb"; "AppTargetGroupBlue"; "AppTargetGroupGreen";
      "Alb/AlbListener"; "AlbListenerRule"; "Alb/AlbTestListener";
      "AlbTestListenerRule" ].
Proof.
  intros Hs Hs'.
  pose proof (IacStack_paths_distinct id props s Hs) as Hnd.
  rewrite IacStack_built in Hs, Hs'.
  injection Hs as <-. injection Hs' as <-.
  repeat (split; [reflexivity | ]).
  split; [exact Hnd | reflexivity].
Qed.

Lemma constructor_ignores_id_and_props_witness :
  tree (built "IacStack" None) =
  tree (built "Staging"
          (Some {| cdk.stackName := Some "staging-blue-green";
                   cdk.description := None;
                   cdk.terminationProtection := Some true |})).
Proof.
  exact (proj1
    (constructor_ignores_id_and_props
       "IacStack" "Staging" None
       (Some {| cdk.stackName := Some "staging-blue-green";
                cdk.description := None;
                cdk.terminationProtection := Some true |})
       (built "IacStack" None)
       (built "Staging"
          (Some {| cdk.stackName := Some "staging-blue-green";
                   cdk.description := None;
                   cdk.terminationProtection := Some true |}))
       eq_refl eq_refl)).
Defined.

(** X4: in the tree the constructor builds, every reference between
    constructs is sound: each path that a construct's props name (VPC,
    cluster, task definition, roles, security groups, load balancer,
    listeners, listener rules, target groups, alternate target) holds a
    construct, and one of the kind the props expect.  This covers the
    references the service only receives after its creation, through
    [attachToApplicationTargetGroup]. *)
Theorem references_resolve (id : string) (props : option cdk.StackProps) :
  exists s,
    IacStack id props = inr s /\
    Forall (fun pc => Forall (resolves s) (references (snd pc))) (tree s).
Proof.
  eexists. split; [apply IacStack_built | ].
  unfold built, synthesized. cbn [tree].
  repeat (apply Forall_cons; [cbn [snd references]; repeat constructor | ]).
  apply Forall_nil.
Qed.

(** ** Network placement *)

(** X5: the service and the load balancer sit in the same VPC, whose
    subnet groups have distinct names.  The service's subnet selection
    picks the group "Private", which that VPC declares as private with
    egress, and the service assigns no public IP; the VPC has a NAT gateway
    for that egress.  The load balancer's selection picks the group
    "Public", declared public, and the load balancer is internet-facing. *)
Theorem network_placement (id : string) (props : option cdk.StackProps) :
  exists s v c a n,
    IacStack id props = inr s /\
    services s = [("Service", v)] /\
    clusterOf s (ecs.cluster v) = Some c /\
    loadBalancerOf s "Alb" = Some a /\
    vpcs s = [(ecs.clusterVpc c, n)] /\
    elbv2.albVpc a = ecs.clusterVpc c /\
    NoDup (map ec2.name (ec2.subnetConfiguration n)) /\
    option_map ec2.subnetType
      (subnetGroup s (ecs.clusterVpc c) (ecs.vpcSubnets v)) =
      Some ec2.PRIVATE_WITH_EGRESS /\
    ecs.assignPublicIp v = false /\
    1 <= ec2.natGateways n /\
    option_map ec2.subnetType
      (subnetGroup s (elbv2.albVpc a) (elbv2.albVpcSubnets a)) =
      Some ec2.PUBLIC /\
    elbv2.internetFacing a = true /\
    ecs.clusterVpc c = "Vpc" /\
    ec2.subnetGroupName (ecs.vpcSubnets v) = "Private" /\
    ec2.subnetGroupName (elbv2.albVpcSubnets a) = "Public".
Proof.
  do 5 eexists. split; [apply IacStack_built | ].
  do 4 (split; [reflexivity | ]).
  split; [reflexivity | ].
  split.
  - cbn. repeat constructor; cbn; intros H;
      repeat (destruct H as [H | H]; [discriminate H | ]); exact H.
  - do 2 (split; [reflexivity | ]). split; [cbn; lia | ].
    repeat (split; [reflexivity | ]). reflexivity.
Qed.

(** X6: the stack declares one VPC, and every construct that is placed in
    a VPC (the cluster, both security groups, the load balancer and both
    target groups) names that one. *)
Theorem single_vpc (id : string) (props : option cdk.StackProps) :
  exists s n,
    IacStack id props = inr s /\
    vpcs s = [("Vpc", n)] /\
    Forall (fun pc => vpcReference (snd pc) = None \/
                      vpcReference (snd pc) = Some "Vpc") (tree s) /\
    map fst (filter (fun pc => match vpcReference (snd pc) with
                               | Some _ => true
                               | None => false
                               end) (tree s)) =
      [ "Cluster"; "AppSg"; "AlbSg"; "Alb";
        "AppTargetGroupBlue"; "AppTargetGroupGreen" ].
Proof.
  do 2 eexists. split; [apply IacStack_built | ].
  split; [reflexivity | ].
  split; [ | reflexivity].
  unfold built, synthesized. cbn [tree].
  repeat (apply Forall_cons;
          [ cbn [snd vpcReference];
            first [left; reflexivity | right; reflexivity] | ]).
  apply Forall_nil.
Qed.

(** ** Roles *)

(** X7: each role is used where its principal can assume it.  The
    execution role of the service's task definition is the role that
    [ecs-tasks.amazonaws.com] assumes, with the managed task execution
    policy; the role handed to the alternate target is the role that
    [ecs.amazonaws.com] assumes, with the managed infrastructure policy for
    load balancers; they are two different constructs. *)
Theorem roles_match_principals (id : string) (props : option cdk.StackProps) :
  exists s v t alt r,
    IacStack id props = inr s /\
    services s = [("Service", v)] /\
    taskDefinitionOf s (ecs.taskDefinition v) = Some t /\
    roleOf s (ecs.executionRole t) =
      Some {| iam.assumedBy := iam.ServicePrincipal "ecs-tasks.amazonaws.com";
              iam.managedPolicies :=
                [ iam.fromAwsManagedPolicyName
                    "service-role/AmazonECSTaskExecutionRolePolicy" ] |} /\
    alternate s = Some alt /\
    ecs.role alt = Some r /\
    roleOf s r =
      Some {| iam.assumedBy := iam.ServicePrincipal "ecs.amazonaws.com";
              iam.managedPolicies :=
                [ iam.fromAwsManagedPolicyName
                    "AmazonECSInfrastructureRolePolicyForLoadBalancers" ] |} /\
    r <> ecs.executionRole t.
Proof.
  do 5 eexists. split; [apply IacStack_built | ].
  repeat (split; [reflexivity | ]).
  discriminate.
Qed.

(** ** The container behind the load balancer target *)

(** X8: the load balancer target of the service names a container that
    the service's task definition holds, and a port that this container
    maps: the task definition has the one container "app", essential, and
    its only port mapping, added after the container was declared, is the
    target's container port.  Both target groups check health on that same
    port. *)
Theorem target_container_port (id : string) (props : option cdk.StackProps) :
  exists s v a d,
    IacStack id props = inr s /\
    services s = [("Service", v)] /\
    attachment s = Some a /\
    containersOf s (ecs.taskDefinition v) = [d] /\
    findContainer s (ecs.taskDefinition v)
                  (ecs.lbContainerName (ecs.target a)) = Some d /\
    mapsPort d (ecs.lbContainerPort (ecs.target a)) = true /\
    ecs.portMappings d =
      [ {| ecs.containerPort := ecs.lbContainerPort (ecs.target a) |} ] /\
    ecs.essential d = true /\
    Forall (fun pg =>
              elbv2.port (elbv2.healthCheck (snd pg)) =
              Some (portString (ecs.lbContainerPort (ecs.target a))))
           (targetGroups s) /\
    ecs.lbContainerName (ecs.target a) = "app" /\
    ecs.lbContainerPort (ecs.target a) = 80 /\
    ecs.containerName d = "app".
Proof.
  do 4 eexists. split; [apply IacStack_built | ].
  repeat (split; [reflexivity | ]).
  split; [repeat constructor | ].
  repeat (split; [reflexivity | ]). reflexivity.
Qed.

(** ** Security groups *)

(** X9: the service and the load balancer use two different security
    groups of the same VPC.  The load balancer's group admits any IPv4
    address on the ports of its two listeners and on nothing else: port 80
    by the source's own ingress rule (the production listener's rule for
    the same port is a duplicate and is dropped) and port 8080 by the test
    listener.  The service's group admits the load balancer's group on the
    target's container port and nothing else, so no rule admits an
    arbitrary address to the service. *)
Theorem security_groups_separate (id : string) (props : option cdk.StackProps) :
  exists s v a g h lp lt att,
    IacStack id props = inr s /\
    services s = [("Service", v)] /\
    ecs.securityGroups v = ["AppSg"] /\
    loadBalancerOf s "Alb" = Some a /\
    elbv2.securityGroup a = "AlbSg" /\
    securityGroupOf s "AppSg" = Some g /\
    securityGroupOf s "AlbSg" = Some h /\
    routeListener s production = Some lp /\
    routeListener s test = Some lt /\
    attachment s = Some att /\
    ec2.ingressRules h = [(ec2.anyIpv4, ec2.tcp 80);
                          (ec2.anyIpv4, ec2.tcp 8080)] /\
    ec2.ingressRules h = [(ec2.anyIpv4, ec2.tcp (elbv2.listenerPort lp));
                          (ec2.anyIpv4, ec2.tcp (elbv2.listenerPort lt))] /\
    ec2.ingressRules g = [(ec2.fromSecurityGroup "AlbSg", ec2.tcp 80)] /\
    ec2.ingressRules g =
      [(ec2.fromSecurityGroup (elbv2.securityGroup a),
        ec2.tcp (ecs.lbContainerPort (ecs.target att)))] /\
    hasIngressRule g ec2.anyIpv4 (ec2.tcp 80) = false /\
    ec2.vpc g = ec2.vpc h /\
    ec2.allowAllOutbound g = true /\
    ec2.allowAllOutbound h = true.
Proof.
  do 8 eexists. split; [apply IacStack_built | ].
  repeat (split; [reflexivity | ]).
  reflexivity.
Qed.

(** ** Requests, port by port *)

(** X10: what the declared load balancer does with a request depends on
    the request's port alone.  Port 80 is forwarded to the blue target
    group, port 8080 to the green one, and there is no listener on any
    other port.  While the two rules are declared, no request is answered
    by a listener's fixed 404 response. *)
Theorem requests_by_port (id : string) (props : option cdk.StackProps)
    (req : Request) :
  exists s,
    IacStack id props = inr s /\
    handle s req =
      (if reqPort req =? 80 then ForwardedTo ["AppTargetGroupBlue"]
       else if reqPort req =? 8080 then ForwardedTo ["AppTargetGroupGreen"]
       else NoListener) /\
    (forall status contentType body,
        handle s req <> Responded status contentType body).
Proof.
  exists (built id props). split; [apply IacStack_built | ].
  assert (H : handle (built id props) req =
              (if reqPort req =? 80 then ForwardedTo ["AppTargetGroupBlue"]
               else if reqPort req =? 8080
                    then ForwardedTo ["AppTargetGroupGreen"]
                    else NoListener)).
  { destruct req as [port path]. cbn [reqPort].
    destruct (Z.eqb_spec port 80) as [-> | H80];
      [apply handle_production | ].
    destruct (Z.eqb_spec port 8080) as [-> | H8080];
      [apply handle_test | ].
    unfold handle, listenerOnPort. cbn [reqPort].
    cbn -[Z.eqb].
    destruct (Z.eqb_spec 80 port) as [E | _]; [congruence | ].
    destruct (Z.eqb_spec 8080 port) as [E | _]; [congruence | ].
    reflexivity. }
  split; [exact H | ].
  intros status contentType body. rewrite H.
  destruct (reqPort req =? 80); [discriminate | ].
  destruct (reqPort req =? 8080); discriminate.
Qed.

(** ** Rule priorities *)

(** X11: both listener rules are declared with priority 1, and the
    priorities are still unique on every listener: each rule is attached
    to its own listener, every listener carries exactly one rule, and the
    two listeners listen on different ports. *)
Theorem rule_priorities_unique (id : string) (props : option cdk.StackProps) :
  exists s,
    IacStack id props = inr s /\
    map (fun pr => elbv2.priority (snd pr)) (listenerRules s) = [1; 1] /\
    (forall l, NoDup (map elbv2.priority (rulesOf s l))) /\
    Forall (fun pl => length (rulesOf s (fst pl)) = 1%nat) (listeners s) /\
    NoDup (map (fun pl => elbv2.listenerPort (snd pl)) (listeners s)).
Proof.
  exists (built id props). split; [apply IacStack_built | ].
  split; [reflexivity | ].
  split; [ | split].
  - intros l. unfold rulesOf. cbn -[String.eqb].
    destruct (String.eqb_spec "Alb/AlbListener" l) as [<- | _].
    + cbn. constructor; [intros [] | constructor].
    + destruct (String.eqb_spec "Alb/AlbTestListener" l) as [<- | _]; cbn.
      * constructor; [intros [] | constructor].
      * constructor.
  - repeat constructor.
  - cbn. constructor.
    + cbn. intros [H | []]. discriminate H.
    + constructor; [intros [] | constructor].
Qed.
